(** * Prejoin: the screen shown before joining a meeting

    A shallow embedding of [react/features/prejoin/components/Prejoin.js]:
    the component's props and local state, its six bound handler methods,
    [render], [mapStateToProps] and [mapDispatchToProps], followed by the
    properties of the component that the design note states. *)

From Stdlib Require Import Bool List String.
Import ListNotations.
Open Scope string_scope.
Set Warnings "-register-all".

(** ** Props and state *)

(** [videoTrack: ?Object] is a handle owned by the tracks feature; the
    component only passes it on, so a track is just an identity here. *)
Inductive JitsiLocalTrack : Type :=
| LocalTrack (id : nat).

(** The data-valued fields of [type Props], plus the translation function
    [t].  The five function-valued props ([joinConference],
    [joinConferenceWithoutAudio], [updateSettings], [setSkipPrejoin],
    [setJoinByPhoneDialogVisiblity]) are represented by the calls made to
    them, see [PropsCall]. *)
Record Props : Type := {
  buttonIsToggled : bool;
  deviceStatusVisible : bool;
  hasJoinByPhoneButton : bool;
  joinButtonDisabled : bool;
  name : string;
  roomName : string;
  showAvatar : bool;
  showCameraPreview : bool;
  showJoinActions : bool;
  showDialog : bool;
  t : string -> string;
  videoTrack : option JitsiLocalTrack
}.

(** [type State]. *)
Record State : Type := {
  showJoinByPhoneButtons : bool
}.

(** The state installed by the constructor. *)
Definition constructor_state : State :=
  {| showJoinByPhoneButtons := false |}.

(** The object handed to [this.setState]: every key of [State] is either
    given or left out; React merges the given keys into the state. *)
Record PartialState : Type := {
  set_showJoinByPhoneButtons : option bool
}.

Definition merge (s : State) (u : PartialState) : State :=
  {| showJoinByPhoneButtons :=
       match set_showJoinByPhoneButtons u with
       | Some v => v
       | None => showJoinByPhoneButtons s
       end |}.

(** ** Effects of a handler *)

(** A call [this.props.f(args)] of one of the function-valued props. *)
Inductive PropsCall : Type :=
| joinConference
| joinConferenceWithoutAudio
| setSkipPrejoin (value : bool)
| setJoinByPhoneDialogVisiblity (value : bool)
| updateSettings (displayName : string).

(** What a handler does, in program order: [e.stopPropagation()], a call of
    a function prop, or [this.setState(partial)]. *)
Inductive Effect : Type :=
| StopPropagation
| Call (c : PropsCall)
| SetState (partial : PartialState).

(** A handler runs inside a React event: it reads [this.props] and
    [this.state] as they were when the event started (a [setState] issued by
    the handler is queued and only merged once the handler has returned) and
    emits effects. *)
Record This : Type := {
  this_props : Props;
  this_state : State
}.

Definition M (A : Type) : Type := This -> A * list Effect.

Definition ret {A} (a : A) : M A := fun _ => (a, []).

Definition bind {A B} (m : M A) (k : A -> M B) : M B :=
  fun this =>
    let (a, out1) := m this in
    let (b, out2) := k a this in
    (b, (out1 ++ out2)%list).

Declare Scope handler_scope.
Delimit Scope handler_scope with handler.
Notation "x <- m ;; k" := (bind m (fun x => k))
  (at level 61, m at next level, right associativity) : handler_scope.
Notation "m ;; k" := (bind m (fun _ => k))
  (at level 61, right associativity) : handler_scope.

Definition props : M Props := fun this => (this_props this, []).
Definition state : M State := fun this => (this_state this, []).
Definition emit (e : Effect) : M unit := fun _ => (tt, [e]).

Definition setState (partial : PartialState) : M unit := emit (SetState partial).
Definition stopPropagation : M unit := emit StopPropagation.
Definition call (c : PropsCall) : M unit := emit (Call c).

(** The effects of running a handler. *)
Definition effects (m : M unit) (this : This) : list Effect := snd (m this).

(** ** The handler methods *)

Section Handlers.
Local Open Scope handler_scope.

Definition _onToggleButtonClick : M unit :=
  p <- props ;;
  call (setSkipPrejoin (negb (buttonIsToggled p))).

Definition _onDropdownClose : M unit :=
  setState {| set_showJoinByPhoneButtons := Some false |}.

Definition _onOptionsClick : M unit :=
  stopPropagation ;;
  s <- state ;;
  setState {| set_showJoinByPhoneButtons := Some (negb (showJoinByPhoneButtons s)) |}.

Definition _setName (displayName : string) : M unit :=
  call (updateSettings displayName).

Definition _closeDialog : M unit :=
  call (setJoinByPhoneDialogVisiblity false).

Definition _showDialog : M unit :=
  call (setJoinByPhoneDialogVisiblity true) ;;
  _onDropdownClose.

End Handlers.

(** ** The element tree built by [render] *)

(** A function value placed in an element's prop: one of the methods bound
    in the constructor, or one of the function props passed straight on. *)
Inductive Callback : Type :=
| this_closeDialog
| this_showDialog
| this_onToggleButtonClick
| this_onDropdownClose
| this_onOptionsClick
| this_setName
| props_joinConference
| props_joinConferenceWithoutAudio.

Scheme Equality for Callback.

Inductive IconSrc : Type :=
| IconPhone
| IconVolumeOff.

(** One constructor per element type used in [render], with the props the
    source passes, in the source's order.  [False_] is the value [false]
    that [cond && <X />] leaves behind when [cond] is false; React displays
    nothing for it. *)
Inductive Element : Type :=
| False_
| Text (s : string)
| Div (className : string) (onClick : option Callback) (children : list Element)
| Icon (className : string) (size : nat) (src : IconSrc)
| InputField (onChange onSubmit : Callback) (placeHolder value : string)
| InlineDialog (content : Element) (isOpen : bool) (onClose : Callback)
    (children : list Element)
| ActionButton (disabled hasOptions : bool) (onClick onOptionsClick : Callback)
    (testId type_ : string) (children : list Element)
| JoinByPhoneDialog (joinConferenceWithoutAudio_ onClose : Callback)
| DeviceStatus
| ToggleButton (isToggled : bool) (onClick : Callback) (children : list Element)
| PreMeetingScreen (footer : Element) (name_ : string)
    (showAvatar_ showConferenceInfo : bool) (skipPrejoinButton : Element)
    (title : string) (videoMuted : bool) (videoTrack_ : option JitsiLocalTrack)
    (children : list Element).

(** [cond && element] on a boolean [cond]. *)
Definition and_then (cond : bool) (e : Element) : Element :=
  if cond then e else False_.

Definition _renderFooter (p : Props) : Element :=
  and_then (deviceStatusVisible p) DeviceStatus.

Definition _renderSkipPrejoinButton (p : Props) : Element :=
  Div "prejoin-checkbox-container" None
    [ ToggleButton (buttonIsToggled p) this_onToggleButtonClick
        [ Text (t p "prejoin.doNotShow") ] ].

(** The [content] prop of the dropdown. *)
Definition dropdown_btns (p : Props) : Element :=
  Div "prejoin-preview-dropdown-btns" None
    [ Div "prejoin-preview-dropdown-btn" (Some props_joinConferenceWithoutAudio)
        [ Icon "prejoin-preview-dropdown-icon" 24 IconVolumeOff;
          Text (t p "prejoin.joinWithoutAudio") ];
      and_then (hasJoinByPhoneButton p)
        (Div "prejoin-preview-dropdown-btn" (Some this_showDialog)
           [ Icon "prejoin-preview-dropdown-icon" 24 IconPhone;
             Text (t p "prejoin.joinAudioByPhone") ]) ].

Definition render (p : Props) (s : State) : Element :=
  PreMeetingScreen
    (_renderFooter p)
    (name p)
    (showAvatar p)
    (showJoinActions p)
    (_renderSkipPrejoinButton p)
    (t p "prejoin.joinMeeting")
    (negb (showCameraPreview p))
    (videoTrack p)
    [ and_then (showJoinActions p)
        (Div "prejoin-input-area-container" None
           [ Div "prejoin-input-area" None
               [ InputField this_setName props_joinConference
                   (t p "dialog.enterDisplayName") (name p);
                 Div "prejoin-preview-dropdown-container" None
                   [ InlineDialog
                       (dropdown_btns p)
                       (showJoinByPhoneButtons s)
                       this_onDropdownClose
                       [ ActionButton (joinButtonDisabled p) true
                           props_joinConference this_onOptionsClick
                           "prejoin.joinMeeting" "primary"
                           [ Text (t p "prejoin.joinMeeting") ] ] ] ] ]);
      and_then (showDialog p)
        (JoinByPhoneDialog props_joinConferenceWithoutAudio this_closeDialog) ].

(** ** Looking into an element tree *)

(** Every element of a tree, the root first: children as well as the
    elements passed in props ([footer], [skipPrejoinButton], [content]). *)
Fixpoint nodes (e : Element) : list Element :=
  e :: match e with
       | False_ | Text _ | Icon _ _ _ | InputField _ _ _ _
       | JoinByPhoneDialog _ _ | DeviceStatus => []
       | Div _ _ cs => flat_map nodes cs
       | InlineDialog content _ _ cs => nodes content ++ flat_map nodes cs
       | ActionButton _ _ _ _ _ _ cs => flat_map nodes cs
       | ToggleButton _ _ cs => flat_map nodes cs
       | PreMeetingScreen footer _ _ _ skip _ _ _ cs =>
           nodes footer ++ nodes skip ++ flat_map nodes cs
       end%list.

Definition contains (f : Element -> bool) (e : Element) : bool :=
  existsb f (nodes e).

(** Modelled from the spec: the child components ([InlineDialog],
    [ActionButton], [JoinByPhoneDialog] and the others) are not part of this
    file.  The design note describes the dropdown as "a transient overlay
    offering secondary join options": an [InlineDialog] shows its [content]
    only while [isOpen].  Nothing else is taken to hide anything, neither a
    disabled button nor a dialog on top, so [shown] is an upper bound on the
    elements a user can act on. *)
Fixpoint shown (e : Element) : list Element :=
  e :: match e with
       | False_ | Text _ | Icon _ _ _ | InputField _ _ _ _
       | JoinByPhoneDialog _ _ | DeviceStatus => []
       | Div _ _ cs => flat_map shown cs
       | InlineDialog content isOpen _ cs =>
           (if isOpen then shown content else []) ++ flat_map shown cs
       | ActionButton _ _ _ _ _ _ cs => flat_map shown cs
       | ToggleButton _ _ cs => flat_map shown cs
       | PreMeetingScreen footer _ _ _ skip _ _ _ cs =>
           shown footer ++ shown skip ++ flat_map shown cs
       end%list.

Definition is_InputField (e : Element) : bool :=
  match e with InputField _ _ _ _ => true | _ => false end.

Definition is_ActionButton (e : Element) : bool :=
  match e with ActionButton _ _ _ _ _ _ _ => true | _ => false end.

Definition is_InlineDialog (e : Element) : bool :=
  match e with InlineDialog _ _ _ _ => true | _ => false end.

Definition is_open_InlineDialog (e : Element) : bool :=
  match e with InlineDialog _ isOpen _ _ => isOpen | _ => false end.

Definition is_JoinByPhoneDialog (e : Element) : bool :=
  match e with JoinByPhoneDialog _ _ => true | _ => false end.

(** The options dropdown is on display when an [InlineDialog] is rendered
    with [isOpen] true; the phone dialog when a [JoinByPhoneDialog] is
    rendered. *)
Definition dropdown_displayed (e : Element) : bool :=
  contains is_open_InlineDialog e.

Definition dialog_displayed (e : Element) : bool :=
  contains is_JoinByPhoneDialog e.

(** The callbacks an element carries in its own props. *)
Definition callbacks (e : Element) : list Callback :=
  match e with
  | Div _ (Some cb) _ => [cb]
  | InputField onChange onSubmit _ _ => [onChange; onSubmit]
  | InlineDialog _ _ onClose _ => [onClose]
  | ActionButton _ _ onClick onOptionsClick _ _ _ => [onClick; onOptionsClick]
  | JoinByPhoneDialog join onClose => [join; onClose]
  | ToggleButton _ onClick _ => [onClick]
  | _ => []
  end.

(** Every callback handed out somewhere in the tree. *)
Definition installed (e : Element) : list Callback :=
  flat_map callbacks (nodes e).

(** The [onClose] hooks of the phone dialogs, and of the dropdowns, of a
    tree. *)
Definition phone_dialog_onClose (e : Element) : list Callback :=
  flat_map (fun n => match n with JoinByPhoneDialog _ onClose => [onClose] | _ => [] end)
    (nodes e).

Definition dropdown_onClose (e : Element) : list Callback :=
  flat_map (fun n => match n with InlineDialog _ _ onClose _ => [onClose] | _ => [] end)
    (nodes e).

(** The [content] of the dropdowns of a tree. *)
Definition dropdown_content (e : Element) : list Element :=
  flat_map (fun n => match n with InlineDialog content _ _ _ => [content] | _ => [] end)
    (nodes e).

(** The click handlers of the buttons ([div]s with an [onClick]) of a tree,
    and the icons it shows. *)
Definition options (e : Element) : list Callback :=
  flat_map (fun n => match n with Div _ (Some cb) _ => [cb] | _ => [] end) (nodes e).

Definition icons (e : Element) : list IconSrc :=
  flat_map (fun n => match n with Icon _ _ src => [src] | _ => [] end) (nodes e).

(** ** Running a callback *)

(** What runs when a child component invokes a callback it was given.
    [value] is the argument the child passes; only [_setName] reads its
    argument (and [_onOptionsClick] uses its event for [stopPropagation]).
    A function prop passed straight on is itself what is called. *)
Definition handler (cb : Callback) (value : string) : M unit :=
  match cb with
  | this_closeDialog => _closeDialog
  | this_showDialog => _showDialog
  | this_onToggleButtonClick => _onToggleButtonClick
  | this_onDropdownClose => _onDropdownClose
  | this_onOptionsClick => _onOptionsClick
  | this_setName => _setName value
  | props_joinConference => call joinConference
  | props_joinConferenceWithoutAudio => call joinConferenceWithoutAudio
  end.

(** The state after the event: the queued [setState] objects merged in
    order. *)
Definition commit (s : State) (out : list Effect) : State :=
  fold_left (fun s e => match e with SetState u => merge s u | _ => s end) out s.

(** The calls of function props among the effects, in order. *)
Definition calls (out : list Effect) : list PropsCall :=
  flat_map (fun e => match e with Call c => [c] | _ => [] end) out.

(** ** [mapStateToProps] *)

(** The selectors imported from other features; they are not part of this
    file, so [mapStateToProps] is stated over any implementation of them. *)
Class Selectors (S : Type) : Type := {
  getDisplayName : S -> string;
  isDisplayNameRequired : S -> bool;
  isPrejoinSkipped : S -> bool;
  isDeviceStatusVisible : S -> bool;
  getRoomName : S -> string;
  isJoinByPhoneDialogVisible : S -> bool;
  isJoinByPhoneButtonVisible : S -> bool;
  isVideoMutedByUser : S -> bool;
  getLocalJitsiVideoTrack : S -> option JitsiLocalTrack
}.

(** The object returned by [mapStateToProps]. *)
Module StateProps.
Record t : Type := {
  buttonIsToggled : bool;
  joinButtonDisabled : bool;
  name : string;
  deviceStatusVisible : bool;
  roomName : string;
  showDialog : bool;
  hasJoinByPhoneButton : bool;
  showCameraPreview : bool;
  videoTrack : option JitsiLocalTrack
}.
End StateProps.

(** [!s] on a string: true exactly for the empty string. *)
Definition not_string (s : string) : bool :=
  match s with
  | EmptyString => true
  | String _ _ => false
  end.

Definition mapStateToProps {S} `{Selectors S} (state : S) : StateProps.t :=
  let name := getDisplayName state in
  let joinButtonDisabled := isDisplayNameRequired state && not_string name in
  {| StateProps.buttonIsToggled := isPrejoinSkipped state;
     StateProps.joinButtonDisabled := joinButtonDisabled;
     StateProps.name := name;
     StateProps.deviceStatusVisible := isDeviceStatusVisible state;
     StateProps.roomName := getRoomName state;
     StateProps.showDialog := isJoinByPhoneDialogVisible state;
     StateProps.hasJoinByPhoneButton := isJoinByPhoneButtonVisible state;
     StateProps.showCameraPreview := negb (isVideoMutedByUser state);
     StateProps.videoTrack := getLocalJitsiVideoTrack state |}.

(** ** [mapDispatchToProps] *)

(** The action creators imported from [../actions] and [base/settings]. *)
Inductive Action : Type :=
| joinConferenceAction
| joinConferenceWithoutAudioAction
| setSkipPrejoinAction (value : bool)
| setJoinByPhoneDialogVisiblityAction (value : bool)
| updateSettingsAction (displayName : string).

(** Calling a function prop dispatches the action made by the creator that
    [mapDispatchToProps] binds to it, with the same arguments. *)
Definition mapDispatchToProps (c : PropsCall) : Action :=
  match c with
  | joinConferenceWithoutAudio => joinConferenceWithoutAudioAction
  | joinConference => joinConferenceAction
  | setJoinByPhoneDialogVisiblity value => setJoinByPhoneDialogVisiblityAction value
  | setSkipPrejoin value => setSkipPrejoinAction value
  | updateSettings displayName => updateSettingsAction displayName
  end.

(** The actions an event dispatches, in order. *)
Definition dispatched (out : list Effect) : list Action :=
  map mapDispatchToProps (calls out).

(** ** The props that reach the component *)

(** What the parent passes: [showAvatar], and [showJoinActions] or nothing
    for it ([None] is a prop left [undefined]). *)
Record OwnProps : Type := {
  own_showAvatar : bool;
  own_showJoinActions : option bool
}.

(** [static defaultProps]. *)
Module defaultProps.
Definition showJoinActions : bool := true.
End defaultProps.

(** React's resolution of a default: it is used when the prop is
    [undefined]. *)
Definition or_default {A} (supplied : option A) (default : A) : A :=
  match supplied with
  | Some v => v
  | None => default
  end.

(** [connect(mapStateToProps, mapDispatchToProps)(translate(Prejoin))]: the
    parent's props, then the state props; [translate] adds [t]; React fills
    in [defaultProps]. *)
Definition connect (tr : string -> string) (own : OwnProps) (sp : StateProps.t)
  : Props :=
  {| buttonIsToggled := StateProps.buttonIsToggled sp;
     deviceStatusVisible := StateProps.deviceStatusVisible sp;
     hasJoinByPhoneButton := StateProps.hasJoinByPhoneButton sp;
     joinButtonDisabled := StateProps.joinButtonDisabled sp;
     name := StateProps.name sp;
     roomName := StateProps.roomName sp;
     showAvatar := own_showAvatar own;
     showCameraPreview := StateProps.showCameraPreview sp;
     showJoinActions := or_default (own_showJoinActions own) defaultProps.showJoinActions;
     showDialog := StateProps.showDialog sp;
     t := tr;
     videoTrack := StateProps.videoTrack sp |}.

(** ** The component in its store *)

(** Modelled from the spec: the global state container and its reducers are
    external to [Prejoin.js].  The store holds what the state projection
    reads (display name, whether a name is required, room name, the
    skip-next-time preference, the device-status, phone-button and
    phone-dialog visibility flags, whether the user muted video, the video
    track handle). *)
Record Store : Type := {
  displayName : string;
  displayNameRequired : bool;
  prejoinSkipped : bool;
  deviceStatus : bool;
  room : string;
  joinByPhoneDialog : bool;
  joinByPhoneButton : bool;
  videoMutedByUser : bool;
  localVideoTrack : option JitsiLocalTrack
}.

#[export] Instance Store_Selectors : Selectors Store := {
  getDisplayName := displayName;
  isDisplayNameRequired := displayNameRequired;
  isPrejoinSkipped := prejoinSkipped;
  isDeviceStatusVisible := deviceStatus;
  getRoomName := room;
  isJoinByPhoneDialogVisible := joinByPhoneDialog;
  isJoinByPhoneButtonVisible := joinByPhoneButton;
  isVideoMutedByUser := videoMutedByUser;
  getLocalJitsiVideoTrack := localVideoTrack
}.

(** Modelled from the spec: the dispatch surface is join, join-without-audio,
    set-skip-prejoin(bool), set-phone-dialog-visible(bool) and
    update-settings({displayName}).  The three setters store their argument;
    what joining does is owned by external collaborators and changes nothing
    that this screen reads. *)
Definition reduce (st : Store) (a : Action) : Store :=
  match a with
  | joinConferenceAction | joinConferenceWithoutAudioAction => st
  | setSkipPrejoinAction value =>
      {| displayName := displayName st;
         displayNameRequired := displayNameRequired st;
         prejoinSkipped := value;
         deviceStatus := deviceStatus st;
         room := room st;
         joinByPhoneDialog := joinByPhoneDialog st;
         joinByPhoneButton := joinByPhoneButton st;
         videoMutedByUser := videoMutedByUser st;
         localVideoTrack := localVideoTrack st |}
  | setJoinByPhoneDialogVisiblityAction value =>
      {| displayName := displayName st;
         displayNameRequired := displayNameRequired st;
         prejoinSkipped := prejoinSkipped st;
         deviceStatus := deviceStatus st;
         room := room st;
         joinByPhoneDialog := value;
         joinByPhoneButton := joinByPhoneButton st;
         videoMutedByUser := videoMutedByUser st;
         localVideoTrack := localVideoTrack st |}
  | updateSettingsAction new_name =>
      {| displayName := new_name;
         displayNameRequired := displayNameRequired st;
         prejoinSkipped := prejoinSkipped st;
         deviceStatus := deviceStatus st;
         room := room st;
         joinByPhoneDialog := joinByPhoneDialog st;
         joinByPhoneButton := joinByPhoneButton st;
         videoMutedByUser := videoMutedByUser st;
         localVideoTrack := localVideoTrack st |}
  end.

(** A mounted component together with everything its props come from. *)
Record World : Type := {
  store : Store;
  own : OwnProps;
  translation : string -> string;
  local : State
}.

(** The world right after mounting: the constructor's state. *)
Definition mount (st : Store) (o : OwnProps) (tr : string -> string) : World :=
  {| store := st; own := o; translation := tr; local := constructor_state |}.

Definition this_of (w : World) : This :=
  {| this_props := connect (translation w) (own w) (mapStateToProps (store w));
     this_state := local w |}.

(** What is on screen. *)
Definition view (w : World) : Element :=
  render (this_props (this_of w)) (this_state (this_of w)).

(** One event: the callback runs, its actions reach the store, its state
    updates are merged. *)
Definition fire (w : World) (cb : Callback) (value : string) : World :=
  let out := effects (handler cb value) (this_of w) in
  {| store := fold_left reduce (dispatched out) (store w);
     own := own w;
     translation := translation w;
     local := commit (local w) out |}.

(** Modelled from the spec: how the child components call the callbacks
    they are given is not part of this file.  A callback can only be invoked
    by a child that was given it and that is [shown]; like [shown], this is
    an upper bound on what a user can set off. *)
Definition offered (w : World) (cb : Callback) : bool :=
  existsb (Callback_beq cb) (flat_map callbacks (shown (view w))).

Inductive reachable (w0 : World) : World -> Prop :=
| reachable_mount : reachable w0 w0
| reachable_fire (w : World) (cb : Callback) (value : string) :
    reachable w0 w -> offered w cb = true -> reachable w0 (fire w cb value).

(** The dialog and the dropdown on screen together. *)
Definition both_displayed (w : World) : bool :=
  dialog_displayed (view w) && dropdown_displayed (view w).

(** A store for examples: a guest without a name in room "standup", name
    required, phone button on, phone dialog off. *)
Definition example_store : Store :=
  {| displayName := "";
     displayNameRequired := true;
     prejoinSkipped := false;
     deviceStatus := true;
     room := "standup";
     joinByPhoneDialog := false;
     joinByPhoneButton := true;
     videoMutedByUser := false;
     localVideoTrack := Some (LocalTrack 0) |}.

Definition example_own : OwnProps :=
  {| own_showAvatar := true; own_showJoinActions := None |}.

Definition example_world : World :=
  mount example_store example_own (fun key => key).

Definition example_props : Props := this_props (this_of example_world).

(** The example world after opening the dropdown and choosing the phone
    option in it. *)
Definition example_dialog_open : World :=
  fire (fire example_world this_onOptionsClick "") this_showDialog "".

(** Props as [example_props], with the join actions switched off by the
    parent. *)
Definition example_props_no_actions : Props :=
  connect (fun key => key)
    {| own_showAvatar := true; own_showJoinActions := Some false |}
    (mapStateToProps example_store).

(** Props as [example_props], without the phone button. *)
Definition example_props_no_phone : Props :=
  connect (fun key => key) example_own
    {| StateProps.buttonIsToggled := false;
       StateProps.joinButtonDisabled := true;
       StateProps.name := "";
       StateProps.deviceStatusVisible := true;
       StateProps.roomName := "standup";
       StateProps.showDialog := false;
       StateProps.hasJoinByPhoneButton := false;
       StateProps.showCameraPreview := true;
       StateProps.videoTrack := None |}.

(** The example store once the guest has typed a name. *)
Definition alice_store : Store :=
  reduce example_store (updateSettingsAction "Alice").

(** ** More ways to look into a tree *)

Definition is_DeviceStatus (e : Element) : bool :=
  match e with DeviceStatus => true | _ => false end.

(** The phone dialogs of a tree, as rendered. *)
Definition phone_dialogs (e : Element) : list Element :=
  filter is_JoinByPhoneDialog (nodes e).

(** For each join button of a tree: its [disabled] flag, its [onClick] and
    its [onOptionsClick]. *)
Definition join_buttons (e : Element) : list (bool * Callback * Callback) :=
  flat_map (fun n => match n with
                     | ActionButton disabled _ onClick onOptionsClick _ _ _ =>
                         [(disabled, onClick, onOptionsClick)]
                     | _ => []
                     end) (nodes e).

(** For each input field of a tree: its [onChange], its [onSubmit] and its
    [value]. *)
Definition input_fields (e : Element) : list (Callback * Callback * string) :=
  flat_map (fun n => match n with
                     | InputField onChange onSubmit _ value => [(onChange, onSubmit, value)]
                     | _ => []
                     end) (nodes e).

(** For each toggle button of a tree: its [isToggled] flag and its
    [onClick]. *)
Definition toggle_buttons (e : Element) : list (bool * Callback) :=
  flat_map (fun n => match n with
                     | ToggleButton isToggled onClick _ => [(isToggled, onClick)]
                     | _ => []
                     end) (nodes e).

(** Every piece of text a tree displays: text children, titles and
    placeholders. *)
Definition labels (e : Element) : list string :=
  flat_map (fun n => match n with
                     | Text s => [s]
                     | InputField _ _ placeHolder _ => [placeHolder]
                     | PreMeetingScreen _ _ _ _ _ title _ _ _ => [title]
                     | _ => []
                     end) (nodes e).

(** The translation keys that occur in the file. *)
Definition translation_keys : list string :=
  [ "prejoin.joinMeeting"; "dialog.enterDisplayName"; "prejoin.joinWithoutAudio";
    "prejoin.joinAudioByPhone"; "prejoin.doNotShow" ].

(** The example world with the join actions switched off by the parent. *)
Definition example_world_no_actions : World :=
  mount example_store
    {| own_showAvatar := true; own_showJoinActions := Some false |}
    (fun key => key).

(** ** The phone dialog is modal *)

(** Modelled from the spec: [JoinByPhoneDialog] is not part of this file; the
    design note calls it "a modal dialog child accepting a close callback
    and the join-without-audio action reference".  A modal dialog keeps
    clicks away from the controls behind it.  Of this only the least is
    used: while the dialog is displayed, the options toggle of the join
    button cannot be clicked.  Every other callback stays as [offered] has
    it, the dropdown's own [onClose] included (a click on the dialog is a
    click outside the dropdown); the fewer callbacks are withheld, the more
    worlds [reachable_modal] covers. *)
Definition offered_modal (w : World) (cb : Callback) : bool :=
  offered w cb
  && negb (dialog_displayed (view w) && Callback_beq cb this_onOptionsClick).

Inductive reachable_modal (w0 : World) : World -> Prop :=
| reachable_modal_mount : reachable_modal w0 w0
| reachable_modal_fire (w : World) (cb : Callback) (value : string) :
    reachable_modal w0 w -> offered_modal w cb = true ->
    reachable_modal w0 (fire w cb value).

(** Whenever the store has the phone dialog visible, the dropdown-open flag
    is false. *)
Definition dialog_implies_closed (w : World) : Prop :=
  joinByPhoneDialog (store w) = true -> showJoinByPhoneButtons (local w) = false.

(** * Properties *)

(** ** What [render] puts on screen *)

Ltac by_render p :=
  destruct p;
  unfold render, dropdown_btns, _renderFooter, _renderSkipPrejoinButton, and_then;
  simpl in *; subst;
  repeat match goal with
         | |- context [if ?b then _ else _] => destruct b
         end;
  reflexivity.

Lemma dialog_displayed_render (p : Props) (s : State) :
  dialog_displayed (render p s) = showDialog p.
Proof. destruct s; by_render p. Qed.

Lemma dropdown_displayed_render (p : Props) (s : State) :
  dropdown_displayed (render p s) = showJoinActions p && showJoinByPhoneButtons s.
Proof. destruct s as [[|]]; by_render p. Qed.

Lemma dropdown_content_render (p : Props) (s : State) :
  dropdown_content (render p s) =
  if showJoinActions p then [dropdown_btns p] else [].
Proof. destruct s; by_render p. Qed.

Lemma no_join_actions_hide_dropdown (p : Props) (s : State) :
  showJoinActions p = false -> contains is_InlineDialog (render p s) = false.
Proof. intros Hoff. destruct s. by_render p. Qed.

Lemma options_dropdown_btns (p : Props) :
  options (dropdown_btns p) =
  props_joinConferenceWithoutAudio ::
    (if hasJoinByPhoneButton p then [this_showDialog] else []).
Proof. by_render p. Qed.

(** ** What an event does to the world *)

Lemma showDialog_connect tr o (st : Store) :
  showDialog (connect tr o (mapStateToProps st)) = joinByPhoneDialog st.
Proof. reflexivity. Qed.

Lemma dialog_displayed_view (w : World) :
  dialog_displayed (view w) = joinByPhoneDialog (store w).
Proof. unfold view. rewrite dialog_displayed_render. reflexivity. Qed.

Lemma dropdown_displayed_view (w : World) :
  dropdown_displayed (view w) =
  or_default (own_showJoinActions (own w)) defaultProps.showJoinActions
  && showJoinByPhoneButtons (local w).
Proof. unfold view. rewrite dropdown_displayed_render. reflexivity. Qed.

(** Only [_showDialog] can turn the dialog flag of the store on. *)
Lemma dialog_turned_on (w : World) (cb : Callback) (value : string) :
  joinByPhoneDialog (store w) = false ->
  joinByPhoneDialog (store (fire w cb value)) = true ->
  cb = this_showDialog.
Proof.
  intros Hoff Hon.
  destruct cb; try reflexivity; cbn in Hon; congruence.
Qed.

(** ** The phone dialog and the dropdown *)

(** While the dialog is displayed the options toggle is withheld. *)
Lemma offered_modal_toggle (w : World) :
  offered_modal w this_onOptionsClick = true -> joinByPhoneDialog (store w) = false.
Proof.
  unfold offered_modal. rewrite dialog_displayed_view.
  destruct (joinByPhoneDialog (store w)); [ | reflexivity ].
  rewrite andb_true_r. simpl. rewrite andb_false_r. intros H. discriminate H.
Qed.

(** Every event keeps [dialog_implies_closed], except a click on the options
    toggle while the dialog is visible. *)
Lemma dialog_implies_closed_step (w : World) (cb : Callback) (value : string) :
  dialog_implies_closed w ->
  joinByPhoneDialog (store w) = false \/ cb <> this_onOptionsClick ->
  dialog_implies_closed (fire w cb value).
Proof.
  unfold dialog_implies_closed.
  destruct w as [st o tr [b]]. intros Hinv Hcb.
  destruct cb; cbn in *; intros Hon; try reflexivity; try discriminate Hon;
    try (apply Hinv; exact Hon).
  destruct Hcb as [Hoff | Hneq]; [ congruence | contradiction Hneq; reflexivity ].
Qed.

Lemma dialog_implies_closed_reachable (w0 w : World) :
  local w0 = constructor_state ->
  reachable_modal w0 w ->
  dialog_implies_closed w.
Proof.
  intros Hmount Hreach.
  induction Hreach as [ | w cb value Hreach IH Hcb ].
  - intros _. rewrite Hmount. reflexivity.
  - apply dialog_implies_closed_step; [ exact IH | ].
    destruct (Callback_eq_dec cb this_onOptionsClick) as [-> | Hneq].
    + left. apply offered_modal_toggle. exact Hcb.
    + right. exact Hneq.
Qed.

Lemma dialog_implies_closed_not_both (w : World) :
  dialog_implies_closed w -> both_displayed w = false.
Proof.
  unfold dialog_implies_closed, both_displayed. intros Hinv.
  rewrite dialog_displayed_view, dropdown_displayed_view.
  destruct (joinByPhoneDialog (store w)); [ | reflexivity ].
  rewrite Hinv by reflexivity. simpl. apply andb_false_r.
Qed.

Lemma reachable_modal_example_dialog_open :
  reachable_modal example_world example_dialog_open.
Proof.
  unfold example_dialog_open.
  repeat (apply reachable_modal_fire; [ | reflexivity ]).
  apply reachable_modal_mount.
Qed.

(** C1: in every world reached from a freshly constructed component, with
    any store behind it, by callbacks that can be invoked (the phone dialog
    being modal), the phone dialog and the options dropdown are not both
    displayed: whenever the dialog is displayed the dropdown-open flag is
    false.  In particular, in any world at all, an event that makes the
    dialog appear is [_showDialog] and sets the dropdown-open flag to false,
    and every event other than a click on the options toggle under a
    displayed dialog keeps the two from being displayed together. *)
Theorem dialog_and_dropdown_never_together
  (st : Store) (o : OwnProps) (tr : string -> string) (w : World) :
  reachable_modal (mount st o tr) w ->
  both_displayed w = false /\
  (dialog_displayed (view w) = true -> showJoinByPhoneButtons (local w) = false) /\
  (forall (w' : World) (cb : Callback) (value : string),
     dialog_displayed (view w') = false ->
     dialog_displayed (view (fire w' cb value)) = true ->
     cb = this_showDialog /\
     showJoinByPhoneButtons (local (fire w' cb value)) = false /\
     both_displayed (fire w' cb value) = false) /\
  (forall (cb : Callback) (value : string),
     dialog_displayed (view w) = false \/ cb <> this_onOptionsClick ->
     both_displayed (fire w cb value) = false).
Proof.
  intros Hreach.
  assert (Hinv : dialog_implies_closed w)
    by (eapply dialog_implies_closed_reachable; [ | exact Hreach ]; reflexivity).
  split; [ apply dialog_implies_closed_not_both; exact Hinv | ].
  split; [ rewrite dialog_displayed_view; exact Hinv | ].
  split.
  - intros w' cb value. rewrite !dialog_displayed_view. intros Hoff Hon.
    assert (cb = this_showDialog) by (eapply dialog_turned_on; eassumption).
    subst cb.
    split; [ reflexivity | ].
    split; [ reflexivity | ].
    apply dialog_implies_closed_not_both. intros _. reflexivity.
  - intros cb value Hcb.
    apply dialog_implies_closed_not_both.
    apply dialog_implies_closed_step; [ exact Hinv | ].
    rewrite <- dialog_displayed_view. exact Hcb.
Qed.

Lemma dialog_and_dropdown_never_together_witness :
  dialog_displayed (view example_dialog_open) = true /\
  both_displayed example_dialog_open = false /\
  showJoinByPhoneButtons (local example_dialog_open) = false.
Proof.
  pose proof (dialog_and_dropdown_never_together
                example_store example_own (fun key => key) example_dialog_open
                reachable_modal_example_dialog_open) as H.
  split; [ reflexivity | ].
  split; [ exact (proj1 H) | exact (proj1 (proj2 H) eq_refl) ].
Defined.

(** C2: whatever the props and the state, [_showDialog] first calls
    [setJoinByPhoneDialogVisiblity(true)] and then sets
    [showJoinByPhoneButtons] to false, and does nothing else; the one action
    dispatched is set-phone-dialog-visible with [true]; after the event the
    dropdown-open flag is false and the component's [showDialog] prop is
    true. *)
Theorem showDialog_opens_dialog_then_closes_dropdown
  (w : World) (value : string) :
  effects (handler this_showDialog value) (this_of w) =
    [ Call (setJoinByPhoneDialogVisiblity true);
      SetState {| set_showJoinByPhoneButtons := Some false |} ] /\
  dispatched (effects (handler this_showDialog value) (this_of w)) =
    [ setJoinByPhoneDialogVisiblityAction true ] /\
  showJoinByPhoneButtons (local (fire w this_showDialog value)) = false /\
  showDialog (this_props (this_of (fire w this_showDialog value))) = true.
Proof. repeat split. Qed.

(** C3, as stated, fails: once the dropdown has been opened and the phone
    option chosen, the phone dialog is on screen and its [onClose] hook is
    [_closeDialog].  That is not [_onDropdownClose]: the one calls
    [setJoinByPhoneDialogVisiblity(false)] and never [setState], the other
    only calls [setState]. *)
Lemma phone_dialog_onClose_is_not_onDropdownClose :
  reachable_modal example_world example_dialog_open /\
  dialog_displayed (view example_dialog_open) = true /\
  phone_dialog_onClose (view example_dialog_open) = [this_closeDialog] /\
  ~ In this_onDropdownClose (phone_dialog_onClose (view example_dialog_open)) /\
  effects (handler this_closeDialog "") (this_of example_dialog_open) =
    [ Call (setJoinByPhoneDialogVisiblity false) ] /\
  effects (handler this_onDropdownClose "") (this_of example_dialog_open) =
    [ SetState {| set_showJoinByPhoneButtons := Some false |} ].
Proof.
  split; [ exact reachable_modal_example_dialog_open | ].
  repeat split.
  intros [H | []]. discriminate H.
Qed.

(** C3 (amended): [_onDropdownClose] sets [showJoinByPhoneButtons] to false
    and does nothing else; it is the [onClose] hook of the options dropdown
    (the [InlineDialog]) and is what [_showDialog] runs after its dispatch.
    It is not the phone dialog's [onClose] hook: that is [_closeDialog],
    which dispatches set-phone-dialog-visible with [false] and leaves the
    local state as it was.  The dropdown-open flag is false after the phone
    dialog is dismissed all the same, because it is false whenever the
    dialog is displayed; the dialog is then gone, and the dropdown's own
    [onClose] running before or after the dismissal changes nothing. *)
Theorem onDropdownClose_is_the_dropdown_hook
  (p : Props) (s : State) (this : This) (value : string)
  (st : Store) (o : OwnProps) (tr : string -> string) (w : World) :
  dropdown_onClose (render p s) =
    (if showJoinActions p then [this_onDropdownClose] else []) /\
  phone_dialog_onClose (render p s) =
    (if showDialog p then [this_closeDialog] else []) /\
  effects (handler this_onDropdownClose value) this =
    [ SetState {| set_showJoinByPhoneButtons := Some false |} ] /\
  commit (this_state this) (effects (handler this_onDropdownClose value) this) =
    {| showJoinByPhoneButtons := false |} /\
  effects _showDialog this =
    Call (setJoinByPhoneDialogVisiblity true) :: effects _onDropdownClose this /\
  effects (handler this_closeDialog value) this =
    [ Call (setJoinByPhoneDialogVisiblity false) ] /\
  dispatched (effects (handler this_closeDialog value) this) =
    [ setJoinByPhoneDialogVisiblityAction false ] /\
  commit (this_state this) (effects (handler this_closeDialog value) this) =
    this_state this /\
  (reachable_modal (mount st o tr) w ->
   dialog_displayed (view w) = true ->
   let dismissed := fire w this_closeDialog value in
   showJoinByPhoneButtons (local w) = false /\
   showJoinByPhoneButtons (local dismissed) = false /\
   dialog_displayed (view dismissed) = false /\
   fire (fire w this_onDropdownClose value) this_closeDialog value = dismissed /\
   fire dismissed this_onDropdownClose value = dismissed).
Proof.
  split; [ destruct s; by_render p | ].
  split; [ destruct s; by_render p | ].
  do 6 (split; [ reflexivity | ]).
  intros Hreach Hon dismissed.
  assert (Hclosed : showJoinByPhoneButtons (local w) = false).
  { rewrite dialog_displayed_view in Hon.
    eapply dialog_implies_closed_reachable; [ | exact Hreach | exact Hon ].
    reflexivity. }
  subst dismissed. destruct w as [st' o' tr' [b]]. simpl in Hclosed. subst b.
  repeat split.
  rewrite dialog_displayed_view. reflexivity.
Qed.

Lemma onDropdownClose_is_the_dropdown_hook_witness :
  dialog_displayed (view example_dialog_open) = true /\
  showJoinByPhoneButtons (local (fire example_dialog_open this_closeDialog "")) = false /\
  dialog_displayed (view (fire example_dialog_open this_closeDialog "")) = false.
Proof.
  pose proof (onDropdownClose_is_the_dropdown_hook
                example_props constructor_state (this_of example_world) ""
                example_store example_own (fun key => key) example_dialog_open) as H.
  pose proof (proj2 (proj2 (proj2 (proj2 (proj2 (proj2 (proj2 (proj2 H)))))))
                reachable_modal_example_dialog_open eq_refl) as Hdismiss.
  split; [ reflexivity | ].
  split; [ exact (proj1 (proj2 Hdismiss)) | exact (proj1 (proj2 (proj2 Hdismiss))) ].
Defined.

(** ** The state projection *)

(** C4: for every global state, the [joinButtonDisabled] prop that
    [mapStateToProps] computes is "a display name is required and the
    projected name is empty", and this is the prop the component receives;
    so it is true when a name is required and the name is [""], and false
    when the name is ["Alice"]. *)
Theorem joinButtonDisabled_iff_required_and_empty
  {S : Type} `{Selectors S} (state : S) (tr : string -> string) (o : OwnProps) :
  let sp := mapStateToProps state in
  StateProps.name sp = getDisplayName state /\
  StateProps.joinButtonDisabled sp =
    isDisplayNameRequired state && String.eqb (StateProps.name sp) "" /\
  joinButtonDisabled (connect tr o sp) = StateProps.joinButtonDisabled sp /\
  (isDisplayNameRequired state = true -> StateProps.name sp = "" ->
   StateProps.joinButtonDisabled sp = true) /\
  (StateProps.name sp = "Alice" -> StateProps.joinButtonDisabled sp = false).
Proof.
  cbn. split; [ reflexivity | ].
  split; [ destruct (getDisplayName state); reflexivity | ].
  split; [ reflexivity | ].
  split.
  - intros -> ->. reflexivity.
  - intros ->. apply andb_false_r.
Qed.

Lemma joinButtonDisabled_iff_required_and_empty_witness :
  StateProps.joinButtonDisabled (mapStateToProps example_store) = true /\
  StateProps.joinButtonDisabled (mapStateToProps alice_store) = false.
Proof.
  split.
  - apply (joinButtonDisabled_iff_required_and_empty example_store (fun key => key) example_own);
      reflexivity.
  - apply (joinButtonDisabled_iff_required_and_empty alice_store (fun key => key) example_own);
      reflexivity.
Defined.

(** ** The options toggle *)

Lemma World_eta (w : World) :
  {| store := store w; own := own w; translation := translation w; local := local w |} = w.
Proof. destruct w; reflexivity. Qed.

(** C5: [_onOptionsClick] first stops the propagation of its event and then
    sets [showJoinByPhoneButtons] to its negation, dispatching nothing; so
    one click flips the flag and two clicks in a row give back the world
    they started from. *)
Theorem onOptionsClick_twice_is_identity (w : World) (e1 e2 : string) :
  effects (handler this_onOptionsClick e1) (this_of w) =
    [ StopPropagation;
      SetState {| set_showJoinByPhoneButtons :=
                    Some (negb (showJoinByPhoneButtons (local w))) |} ] /\
  showJoinByPhoneButtons (local (fire w this_onOptionsClick e1)) =
    negb (showJoinByPhoneButtons (local w)) /\
  local (fire (fire w this_onOptionsClick e1) this_onOptionsClick e2) = local w /\
  fire (fire w this_onOptionsClick e1) this_onOptionsClick e2 = w.
Proof.
  split; [ reflexivity | ].
  split; [ reflexivity | ].
  assert (Hlocal : local (fire (fire w this_onOptionsClick e1) this_onOptionsClick e2)
                   = local w).
  { destruct w as [st o tr [b]]. cbn. rewrite negb_involutive. reflexivity. }
  split; [ exact Hlocal | ].
  transitivity
    {| store := store w; own := own w; translation := translation w;
       local := local (fire (fire w this_onOptionsClick e1) this_onOptionsClick e2) |}.
  - reflexivity.
  - rewrite Hlocal. apply World_eta.
Qed.

(** ** What [render] leaves out *)

(** C6: when [showJoinActions] is false, the rendered tree holds no name
    input field, no join button and no options dropdown. *)
Theorem no_join_actions_no_controls (p : Props) (s : State) :
  showJoinActions p = false ->
  contains is_InputField (render p s) = false /\
  contains is_ActionButton (render p s) = false /\
  contains is_InlineDialog (render p s) = false.
Proof.
  intros Hoff. destruct s.
  repeat split; by_render p.
Qed.

Lemma no_join_actions_no_controls_witness :
  showJoinActions example_props_no_actions = false /\
  contains is_InputField (render example_props_no_actions constructor_state) = false /\
  contains is_ActionButton (render example_props_no_actions constructor_state) = false /\
  contains is_InlineDialog (render example_props_no_actions constructor_state) = false.
Proof.
  split; [ reflexivity | ].
  apply (no_join_actions_no_controls example_props_no_actions constructor_state).
  reflexivity.
Defined.

(** C7: when [showJoinActions] is true and [hasJoinByPhoneButton] is false,
    the tree has one dropdown, and its content offers the
    join-without-audio option and nothing else: no button runs
    [_showDialog], and no phone icon is shown. *)
Theorem no_phone_button_no_phone_option (p : Props) (s : State) :
  showJoinActions p = true ->
  hasJoinByPhoneButton p = false ->
  dropdown_content (render p s) = [dropdown_btns p] /\
  options (dropdown_btns p) = [props_joinConferenceWithoutAudio] /\
  icons (dropdown_btns p) = [IconVolumeOff] /\
  ~ In this_showDialog (installed (render p s)).
Proof.
  intros Hon Hoff.
  split; [ rewrite dropdown_content_render, Hon; reflexivity | ].
  split; [ rewrite options_dropdown_btns, Hoff; reflexivity | ].
  split; [ by_render p | ].
  destruct s. destruct p.
  unfold render, dropdown_btns, _renderFooter, _renderSkipPrejoinButton, and_then.
  simpl in *. subst.
  repeat match goal with
         | |- context [if ?b then _ else _] => destruct b
         end;
    simpl; intuition discriminate.
Qed.

Lemma no_phone_button_no_phone_option_witness :
  showJoinActions example_props_no_phone = true /\
  hasJoinByPhoneButton example_props_no_phone = false /\
  options (dropdown_btns example_props_no_phone) = [props_joinConferenceWithoutAudio] /\
  ~ In this_showDialog (installed (render example_props_no_phone constructor_state)).
Proof.
  pose proof (no_phone_button_no_phone_option example_props_no_phone constructor_state
                eq_refl eq_refl) as H.
  split; [ reflexivity | ].
  split; [ reflexivity | ].
  split; [ exact (proj1 (proj2 H)) | exact (proj2 (proj2 (proj2 H))) ].
Defined.

(** ** The skip-prejoin toggle *)

(** C8: whatever [buttonIsToggled] is, [_onToggleButtonClick] calls
    [setSkipPrejoin] with its negation and does nothing else: the one action
    dispatched is set-skip-prejoin with that value, and the local state is
    untouched. *)
Theorem onToggleButtonClick_dispatches_negation (this : This) (value : string) :
  effects (handler this_onToggleButtonClick value) this =
    [ Call (setSkipPrejoin (negb (buttonIsToggled (this_props this)))) ] /\
  dispatched (effects (handler this_onToggleButtonClick value) this) =
    [ setSkipPrejoinAction (negb (buttonIsToggled (this_props this))) ] /\
  commit (this_state this) (effects (handler this_onToggleButtonClick value) this) =
    this_state this.
Proof. repeat split. Qed.

(** ** Default props *)

(** C9: when the parent does not pass [showJoinActions], the component
    receives [true] for it, and the name input, the join button and the
    options dropdown are rendered. *)
Theorem showJoinActions_defaults_to_true
  (tr : string -> string) (o : OwnProps) (sp : StateProps.t) (s : State) :
  own_showJoinActions o = None ->
  let p := connect tr o sp in
  showJoinActions p = true /\
  contains is_InputField (render p s) = true /\
  contains is_ActionButton (render p s) = true /\
  contains is_InlineDialog (render p s) = true.
Proof.
  intros Hnone p.
  assert (Hon : showJoinActions p = true).
  { unfold p. simpl. rewrite Hnone. reflexivity. }
  split; [ exact Hon | ].
  clearbody p. destruct s.
  repeat split; by_render p.
Qed.

Lemma showJoinActions_defaults_to_true_witness :
  own_showJoinActions example_own = None /\
  showJoinActions example_props = true /\
  contains is_InputField (render example_props constructor_state) = true /\
  contains is_ActionButton (render example_props constructor_state) = true /\
  contains is_InlineDialog (render example_props constructor_state) = true.
Proof.
  split; [ reflexivity | ].
  apply (showJoinActions_defaults_to_true (fun key => key) example_own
           (mapStateToProps example_store) constructor_state).
  reflexivity.
Defined.

(** ** Closing the phone dialog *)

(** C10: whatever the local state, [_closeDialog] calls
    [setJoinByPhoneDialogVisiblity(false)] and nothing else: the one action
    dispatched is set-phone-dialog-visible with [false], and
    [showJoinByPhoneButtons] is what it was. *)
Theorem closeDialog_keeps_dropdown_state (w : World) (value : string) :
  effects (handler this_closeDialog value) (this_of w) =
    [ Call (setJoinByPhoneDialogVisiblity false) ] /\
  dispatched (effects (handler this_closeDialog value) (this_of w)) =
    [ setJoinByPhoneDialogVisiblityAction false ] /\
  showJoinByPhoneButtons (local (fire w this_closeDialog value)) =
    showJoinByPhoneButtons (local w) /\
  local (fire w this_closeDialog value) = local w.
Proof. repeat split. Qed.

(** * Further properties of the component *)

(** ** The footer *)

(** X1: the tree holds a [DeviceStatus] element exactly when
    [deviceStatusVisible] is true, whatever the other props and the state
    are; otherwise the footer is the value [false]. *)
Theorem footer_shows_device_status_iff_visible (p : Props) (s : State) :
  contains is_DeviceStatus (render p s) = deviceStatusVisible p /\
  _renderFooter p = (if deviceStatusVisible p then DeviceStatus else False_) /\
  exists name_ avatar info skip title muted track children,
    render p s =
    PreMeetingScreen (_renderFooter p) name_ avatar info skip title muted track children.
Proof.
  split; [ destruct s; by_render p | ].
  split; [ reflexivity | ].
  unfold render. repeat eexists.
Qed.

(** ** The join button and the name field *)

(** X2: the join button is rendered with [disabled] equal to
    [joinButtonDisabled], but the name field's [onSubmit] is [joinConference]
    whether or not the button is disabled, and running it calls
    [joinConference] without looking at the flag. *)
Theorem submit_joins_even_when_button_disabled
  (p : Props) (s : State) (this : This) (value : string) :
  join_buttons (render p s) =
    (if showJoinActions p
     then [ (joinButtonDisabled p, props_joinConference, this_onOptionsClick) ]
     else []) /\
  input_fields (render p s) =
    (if showJoinActions p
     then [ (this_setName, props_joinConference, name p) ]
     else []) /\
  dispatched (effects (handler props_joinConference value) this) =
    [ joinConferenceAction ].
Proof.
  split; [ destruct s; by_render p | ].
  split; [ destruct s; by_render p | ].
  reflexivity.
Qed.

(** X3: whatever text the name field reports, the empty string included,
    [_setName] passes it unchanged to [updateSettings] as the display name,
    once, and leaves the local state alone. *)
Theorem setName_forwards_any_text (this : This) (text : string) :
  effects (handler this_setName text) this = [ Call (updateSettings text) ] /\
  dispatched (effects (handler this_setName text) this) =
    [ updateSettingsAction text ] /\
  commit (this_state this) (effects (handler this_setName text) this) =
    this_state this.
Proof. repeat split. Qed.

(** ** The phone dialog and the phone option *)

(** X4: the phone dialog is rendered exactly when [showDialog] is true, also
    when the join actions are hidden and whatever the dropdown state is; it
    is handed [joinConferenceWithoutAudio] and [_closeDialog]. *)
Theorem phone_dialog_rendered_iff_showDialog (p : Props) (s : State) :
  phone_dialogs (render p s) =
    (if showDialog p
     then [ JoinByPhoneDialog props_joinConferenceWithoutAudio this_closeDialog ]
     else []) /\
  dialog_displayed (render p s) = showDialog p.
Proof.
  split; [ destruct s; by_render p | apply dialog_displayed_render ].
Qed.

(** X5: [_showDialog] is handed out somewhere in the tree if and only if
    both [showJoinActions] and [hasJoinByPhoneButton] are true; in that case
    the dropdown offers join-without-audio first and join-by-phone second,
    with the volume-off and the phone icon. *)
Theorem phone_option_iff_actions_and_phone_button (p : Props) (s : State) :
  (In this_showDialog (installed (render p s)) <->
   showJoinActions p = true /\ hasJoinByPhoneButton p = true) /\
  (hasJoinByPhoneButton p = true ->
   options (dropdown_btns p) = [ props_joinConferenceWithoutAudio; this_showDialog ] /\
   icons (dropdown_btns p) = [ IconVolumeOff; IconPhone ]).
Proof.
  split.
  - destruct s. destruct p.
    unfold render, dropdown_btns, _renderFooter, _renderSkipPrejoinButton, and_then.
    simpl.
    repeat match goal with
           | |- context [if ?b then _ else _] => destruct b
           end;
      simpl; split; intros H; intuition discriminate.
  - intros Hon. rewrite options_dropdown_btns, Hon.
    split; [ reflexivity | ].
    destruct p. unfold dropdown_btns, and_then. simpl in *. subst. reflexivity.
Qed.

Lemma phone_option_iff_actions_and_phone_button_witness :
  hasJoinByPhoneButton example_props = true /\
  In this_showDialog (installed (render example_props constructor_state)) /\
  options (dropdown_btns example_props) =
    [ props_joinConferenceWithoutAudio; this_showDialog ].
Proof.
  pose proof (phone_option_iff_actions_and_phone_button example_props constructor_state)
    as [Hiff Hopts].
  split; [ reflexivity | ].
  split.
  - apply Hiff. split; reflexivity.
  - apply (proj1 (Hopts eq_refl)).
Defined.

(** ** The skip-prejoin toggle *)

(** X6: the tree always holds exactly one toggle button, whatever the props
    and the state; it shows [buttonIsToggled] and runs
    [_onToggleButtonClick]. *)
Theorem skip_prejoin_button_always_rendered (p : Props) (s : State) :
  toggle_buttons (render p s) = [ (buttonIsToggled p, this_onToggleButtonClick) ] /\
  toggle_buttons (_renderSkipPrejoinButton p) =
    [ (buttonIsToggled p, this_onToggleButtonClick) ].
Proof.
  split; [ destruct s; by_render p | reflexivity ].
Qed.

(** ** From the store to the screen *)

(** X7: for any implementation of the selectors, the root element of the
    connected component gets the display name of the store as [name], the
    store's track as [videoTrack], the parent's [showAvatar], and
    [videoMuted] equal to [isVideoMutedByUser]: the negation taken by
    [mapStateToProps] and the one taken by [render] cancel. *)
Theorem root_props_from_store
  {S : Type} `{Selectors S} (state : S) (tr : string -> string) (o : OwnProps)
  (s : State) :
  exists skip children,
    render (connect tr o (mapStateToProps state)) s =
    PreMeetingScreen
      (if isDeviceStatusVisible state then DeviceStatus else False_)
      (getDisplayName state)
      (own_showAvatar o)
      (or_default (own_showJoinActions o) defaultProps.showJoinActions)
      skip
      (tr "prejoin.joinMeeting")
      (isVideoMutedByUser state)
      (getLocalJitsiVideoTrack state)
      children.
Proof.
  unfold render, _renderFooter, and_then. cbn.
  rewrite negb_involutive. eexists. eexists. reflexivity.
Qed.

(** X8: the local state shows in the tree only through the dropdown: two
    states give the same tree if and only if the join actions are hidden or
    the states are equal. *)
Theorem render_depends_on_state_iff_join_actions (p : Props) (s s' : State) :
  render p s = render p s' <-> showJoinActions p = false \/ s = s'.
Proof.
  destruct s as [b], s' as [b'].
  unfold render, and_then.
  destruct (showJoinActions p); split.
  - intros H. right. injection H as H. rewrite H. reflexivity.
  - intros [H | H]; [ discriminate H | rewrite H; reflexivity ].
  - intros _. left. reflexivity.
  - intros _. reflexivity.
Qed.

(** ** How the handlers use the local state *)

(** X9: the dropdown-open flag goes from false to true only through
    [_onOptionsClick], and no callback other than [_onOptionsClick],
    [_onDropdownClose] and [_showDialog] changes the local state at all. *)
Theorem dropdown_opens_only_by_options_click
  (this : This) (cb : Callback) (value : string) :
  (showJoinByPhoneButtons (this_state this) = false ->
   showJoinByPhoneButtons (commit (this_state this) (effects (handler cb value) this))
     = true ->
   cb = this_onOptionsClick) /\
  (cb <> this_onOptionsClick -> cb <> this_onDropdownClose -> cb <> this_showDialog ->
   commit (this_state this) (effects (handler cb value) this) = this_state this).
Proof.
  destruct this as [p [b]]. split.
  - intros Hclosed Hopen. simpl in Hclosed. subst b.
    destruct cb; try reflexivity; cbn in Hopen; discriminate Hopen.
  - intros H1 H2 H3. destruct cb; try reflexivity; congruence.
Qed.

Lemma dropdown_opens_only_by_options_click_witness :
  showJoinByPhoneButtons
    (commit (this_state (this_of example_world))
       (effects (handler this_onOptionsClick "") (this_of example_world))) = true /\
  commit (this_state (this_of example_world))
    (effects (handler this_setName "Alice") (this_of example_world)) =
  this_state (this_of example_world).
Proof.
  split; [ reflexivity | ].
  apply (dropdown_opens_only_by_options_click (this_of example_world) this_setName "Alice");
    discriminate.
Defined.

(** X10: after any event, a following [_onDropdownClose] or [_showDialog]
    puts the local state back to the constructor's, and a following
    [_onOptionsClick] undoes an [_onDropdownClose]: it opens the dropdown. *)
Theorem closing_resets_to_constructor_state
  (w : World) (cb : Callback) (v1 v2 : string) :
  local (fire (fire w cb v1) this_onDropdownClose v2) = constructor_state /\
  local (fire (fire w cb v1) this_showDialog v2) = constructor_state /\
  showJoinByPhoneButtons
    (local (fire (fire w this_onDropdownClose v1) this_onOptionsClick v2)) = true.
Proof. repeat split. Qed.

(** X11: only the two function props passed straight on join the
    conference: an event dispatches the join action if and only if its
    callback is [joinConference], the join-without-audio action if and only
    if it is [joinConferenceWithoutAudio]; and no event dispatches more than
    one action. *)
Theorem only_join_props_join (this : This) (cb : Callback) (value : string) :
  (In joinConferenceAction (dispatched (effects (handler cb value) this)) <->
   cb = props_joinConference) /\
  (In joinConferenceWithoutAudioAction (dispatched (effects (handler cb value) this)) <->
   cb = props_joinConferenceWithoutAudio) /\
  List.length (dispatched (effects (handler cb value) this)) <= 1.
Proof.
  split; [ | split ].
  - destruct cb; cbn; split; intros H;
      try discriminate H; try reflexivity; try contradiction;
      try (left; reflexivity);
      destruct H as [H | []]; discriminate H.
  - destruct cb; cbn; split; intros H;
      try discriminate H; try reflexivity; try contradiction;
      try (left; reflexivity);
      destruct H as [H | []]; discriminate H.
  - destruct cb; cbn; repeat constructor.
Qed.

(** ** All text is translated *)

(** X12: every text child, title and placeholder of the tree is the
    translation of one of the five keys of the file. *)
Theorem labels_are_translations (p : Props) (s : State) (label : string) :
  In label (labels (render p s)) ->
  exists key, In key translation_keys /\ label = t p key.
Proof.
  destruct s. destruct p.
  unfold render, dropdown_btns, _renderFooter, _renderSkipPrejoinButton, and_then,
    translation_keys.
  simpl.
  repeat match goal with
         | |- context [if ?b then _ else _] => destruct b
         end;
    simpl; intros H;
    repeat match goal with
           | H : _ \/ _ |- _ => destruct H as [H | H]
           | H : False |- _ => contradiction
           end;
    subst label; eexists; (split; [ | reflexivity ]); simpl; tauto.
Qed.

Lemma labels_are_translations_witness :
  exists key, In key translation_keys /\ "prejoin.doNotShow" = t example_props key.
Proof.
  apply (labels_are_translations example_props constructor_state "prejoin.doNotShow").
  simpl. tauto.
Defined.

(** ** What can happen on screen *)

Ltac by_offered w :=
  destruct w as [[? ? ? [|] ? [|] [|] ? ?] [? [[|]|]] ? [[|]]];
  unfold offered, view, this_of, render, dropdown_btns, _renderFooter,
    _renderSkipPrejoinButton, and_then;
  cbn.

(** With the join actions hidden, no callback on screen touches the local
    state. *)
Lemma hidden_actions_step (w : World) (cb : Callback) (value : string) :
  own_showJoinActions (own w) = Some false ->
  offered w cb = true ->
  local (fire w cb value) = local w.
Proof.
  intros Hoff Hcb. destruct cb; try reflexivity;
    revert Hoff Hcb; by_offered w; intros; discriminate.
Qed.

(** X13: when the parent hides the join actions, the dropdown stays closed
    for good: in every world reached from a freshly mounted one by events
    offered on screen, the local state is still the constructor's and the
    tree holds no dropdown. *)
Theorem hidden_actions_keep_dropdown_closed
  (st : Store) (o : OwnProps) (tr : string -> string) (w : World) :
  own_showJoinActions o = Some false ->
  reachable (mount st o tr) w ->
  local w = constructor_state /\
  contains is_InlineDialog (view w) = false /\
  dropdown_displayed (view w) = false.
Proof.
  intros Hoff Hreach.
  assert (Hinv : own w = o /\ local w = constructor_state).
  { induction Hreach as [ | w cb value Hreach [IHown IHlocal] Hcb ].
    - split; reflexivity.
    - split; [ exact IHown | ].
      rewrite hidden_actions_step; [ exact IHlocal | | exact Hcb ].
      rewrite IHown. exact Hoff. }
  destruct Hinv as [Hown Hlocal].
  split; [ exact Hlocal | ].
  assert (Hprops : showJoinActions (this_props (this_of w)) = false).
  { simpl. rewrite Hown, Hoff. reflexivity. }
  split.
  - apply no_join_actions_hide_dropdown. exact Hprops.
  - rewrite dropdown_displayed_view, Hown, Hoff. reflexivity.
Qed.

Lemma hidden_actions_keep_dropdown_closed_witness :
  let w := fire example_world_no_actions this_onToggleButtonClick "" in
  prejoinSkipped (store w) = true /\
  local w = constructor_state /\
  dropdown_displayed (view w) = false.
Proof.
  pose proof (hidden_actions_keep_dropdown_closed example_store
                {| own_showAvatar := true; own_showJoinActions := Some false |}
                (fun key => key)
                (fire example_world_no_actions this_onToggleButtonClick "")
                eq_refl
                (reachable_fire example_world_no_actions example_world_no_actions
                   this_onToggleButtonClick ""
                   (reachable_mount example_world_no_actions) eq_refl)) as H.
  split; [ reflexivity | ].
  split; [ exact (proj1 H) | exact (proj2 (proj2 H)) ].
Defined.

(** X14: the component asks for the phone dialog to open only from an open
    dropdown that has the phone option: if a callback offered on screen
    dispatches set-phone-dialog-visible with [true], then the join actions
    are shown, the phone button is visible and the dropdown is open. *)
Theorem dialog_requested_only_from_open_dropdown
  (w : World) (cb : Callback) (value : string) :
  offered w cb = true ->
  In (setJoinByPhoneDialogVisiblityAction true)
     (dispatched (effects (handler cb value) (this_of w))) ->
  showJoinActions (this_props (this_of w)) = true /\
  hasJoinByPhoneButton (this_props (this_of w)) = true /\
  showJoinByPhoneButtons (local w) = true.
Proof.
  intros Hcb Hin.
  assert (cb = this_showDialog).
  { destruct cb; try reflexivity; cbn in Hin;
      try contradiction; destruct Hin as [Hin | []]; discriminate Hin. }
  subst cb. clear Hin. revert Hcb.
  by_offered w; intros; try discriminate; repeat split.
Qed.

Lemma dialog_requested_only_from_open_dropdown_witness :
  let w := fire example_world this_onOptionsClick "" in
  offered example_world this_showDialog = false /\
  offered w this_showDialog = true /\
  showJoinByPhoneButtons (local w) = true.
Proof.
  pose proof (dialog_requested_only_from_open_dropdown
                (fire example_world this_onOptionsClick "") this_showDialog ""
                eq_refl (or_introl eq_refl)) as H.
  split; [ reflexivity | ].
  split; [ reflexivity | exact (proj2 (proj2 H)) ].
Defined.
